(** * Medical Image Analytics: a shallow embedding of [src/app.py]

    The Streamlit script is re-executed top to bottom on every user
    interaction.  One execution is modelled as a function from the
    session state ([st.session_state]) and the widget values of this
    rerun to the new session state and the list of things the script
    emitted (UI elements and requests to the inference service).
    Responses of the remote service are inputs of the rerun. *)

From Stdlib Require Import String Ascii List Bool.
From Stdlib Require Import Init.Byte.
Import ListNotations.
Open Scope string_scope.
Open Scope list_scope.

(** ** Data model *)

(** A part of a Gemini content: an inline blob ([{"mime_type", "data"}])
    or plain text. *)
Inductive part : Type :=
| PImage (mime_type : string) (data : list byte)
| PText (text : string).

Inductive role : Type := User | Model.

(** A turn ([{"role": ..., "parts": [...]}]). *)
Record turn : Type := mk_turn { turn_role : role ; turn_parts : list part }.

(** The uploaded file as returned by [st.file_uploader].  [up_opens]
    records whether PIL, which [st.image] uses at line 61 to read the
    upload, can decode [up_content]; PIL itself is not modelled. *)
Record uploaded : Type := mk_uploaded {
  up_name : string ;
  up_type : string ;
  up_content : list byte ;
  up_opens : bool
}.

(** [st.session_state]: the three [uploaded_file_*] keys are always set
    together (lines 65-67), so they are one optional record; the key
    [history] is set to [[]] at line 73 before any read, so an absent key
    is the empty list. *)
Record session : Type := mk_session {
  sess_file : option uploaded ;
  history : list turn
}.

Definition init_session : session := mk_session None [].

(** Result of a call to [model.generate_content(...)] followed by
    [response.text]: the text, or the detail of the exception raised,
    either by [generate_content] itself ([ErrCall]) or by reading
    [response.text] afterwards ([ErrText]). *)
Inductive call_result : Type :=
| Ok (text : string)
| ErrCall (detail : string)
| ErrText (detail : string).

(** Widget values and service responses seen by one rerun. *)
Record inputs : Type := mk_inputs {
  in_upload : option uploaded ;        (* st.file_uploader(...) *)
  in_submit : bool ;                   (* st.button("Generate the analysis") *)
  in_prompt : option string ;          (* st.chat_input(...) *)
  in_analysis_resp : call_result ;     (* response to the analysis call *)
  in_followup_resp : call_result       (* response to the follow-up call *)
}.

(** What the script emits, in order. *)
Inductive output : Type :=
| OError (msg : string)                (* st.error *)
| OStop                                (* st.stop *)
| OTitle (s : string)                  (* st.title *)
| OConfigure (api_key : string)        (* genai.configure(api_key=...) *)
| OShowImage (f : uploaded)            (* st.image(uploaded_file, ...) *)
| OSubheader (s : string)              (* st.subheader *)
| OWrite (s : string)                  (* st.write *)
| OWarning (msg : string)              (* st.warning *)
| ODivider                             (* st.divider *)
| OChat (who : string) (s : string)    (* st.chat_message(who): st.markdown(s) *)
| OChatOpen (who : string)             (* st.chat_message(who) left empty *)
| OException (detail : string)         (* uncaught exception shown by Streamlit *)
| ORequest (contents : list turn).     (* model.generate_content(contents) *)

(** ** Constants of the script *)

Definition sentinel : string := "Analyze this medical image.".
Definition analysis_instruction : string :=
  String (ascii_of_nat 10) "Analyze this medical image based on the system instructions.".
Definition replay_instruction : string :=
  "Analyze this medical image based on the system instructions.".
Definition analysis_prefix : string := "1.  **Detailed Description**".
Definition api_key_missing_msg : string :=
  "API Key not found. Please set it in Streamlit secrets or api_key.py".
Definition no_image_msg : string := "Please upload an image first.".

Definition role_name (r : role) : string :=
  match r with User => "user" | Model => "model" end.

(** [message["parts"][0] == s]: a blob part never equals a string.
    Stored turns always have a first part (see [history_text_only]). *)
Definition part0_is (t : turn) (s : string) : bool :=
  match turn_parts t with
  | PText x :: _ => String.eqb x s
  | _ => false
  end.

(** [message["parts"][0].startswith(p)]. *)
Definition part0_starts (t : turn) (p : string) : bool :=
  match turn_parts t with
  | PText x :: _ => String.prefix p x
  | _ => false
  end.

Definition part0_text (t : turn) : string :=
  match turn_parts t with
  | PText x :: _ => x
  | _ => ""
  end.

(** ** Configuration (lines 6-26) *)

(** Where the credential may come from: [cfg_file] is the name [api_key]
    of module [api_key.py] ([None] when the import raises [ImportError]);
    [cfg_secret] is [st.secrets["api_key"]] ([None] when the key is absent
    or reading the secrets raises [FileNotFoundError]). *)
Record config : Type := mk_config {
  cfg_file : option string ;
  cfg_secret : option string
}.

(** Python truthiness of the variable [api_key] ([None] or a string). *)
Definition truthy (v : option string) : bool :=
  match v with
  | Some k => negb (String.eqb k "")
  | None => false
  end.

(** Lines 6-20. *)
Definition resolve_api_key (c : config) : option string :=
  let api_key := cfg_file c in
  if negb (truthy api_key) then
    match cfg_secret c with
    | Some v => Some v
    | None => api_key
    end
  else api_key.

(** ** One rerun of the script *)

(** Lines 60-69 when [st.image] at line 61 succeeds (see [app_rerun] for
    the rerun where it raises): show the upload and, when the session
    holds no file or one of another name, store the new file and reset
    the history. *)
Definition upload_step (u : option uploaded) (s : session) : session * list output :=
  match u with
  | Some f =>
      let s' :=
        match sess_file s with
        | None => mk_session (Some f) []
        | Some g =>
            if String.eqb (up_name g) (up_name f) then s
            else mk_session (Some f) []
        end in
      (s', [OShowImage f])
  | None => (s, [])
  end.

(** [prompt_parts] of lines 81-91, sent as one user content. *)
Definition analysis_request (g : uploaded) : list turn :=
  [mk_turn User [PImage (up_type g) (up_content g); PText analysis_instruction]].

(** Detail of the [AttributeError] raised at line 78 if the session held
    no file; [upload_step] always stores one first, so it is not reached
    from [script_body]. *)
Definition missing_file_detail : string :=
  "st.session_state has no attribute uploaded_file_content".

(** Lines 71-105: the analysis button. *)
Definition submit_step (inp : inputs) (s : session) : session * list output :=
  if in_submit inp then
    match in_upload inp with
    | Some _ =>
        match sess_file s with
        | None => (s, [OError ("An error occurred: " ++ missing_file_detail)%string])
        | Some g =>
            let req := analysis_request g in
            match in_analysis_resp inp with
            | Ok r =>
                (mk_session (sess_file s)
                   (history s ++ [mk_turn User [PText sentinel];
                                  mk_turn Model [PText r]]),
                 [ORequest req; OSubheader "Analysis Result"; OWrite r])
            | ErrCall e =>
                (s, [ORequest req; OError ("An error occurred: " ++ e)%string])
            | ErrText e =>
                (s, [ORequest req; OSubheader "Analysis Result";
                     OError ("An error occurred: " ++ e)%string])
            end
        end
    | None => (s, [OWarning no_image_msg])
    end
  else (s, []).

(** Lines 114-124: one message of the transcript. *)
Definition render_turn (t : turn) : list output :=
  if (match turn_role t with User => true | Model => false end)
       && part0_is t sentinel then []
  else if (match turn_role t with Model => true | User => false end)
            && part0_starts t analysis_prefix then []
  else [OChat (role_name (turn_role t)) (part0_text t)].

Fixpoint render_history (h : list turn) : list output :=
  match h with
  | [] => []
  | t :: h' => render_turn t ++ render_history h'
  end.

(** Lines 152-158: stored turns replayed after the first one. *)
Fixpoint replay_rest (h : list turn) : list turn :=
  match h with
  | [] => []
  | msg :: h' =>
      if part0_is msg sentinel then replay_rest h'
      else msg :: replay_rest h'
  end.

(** The synthesized first turn (lines 137-145). *)
Definition image_turn (g : uploaded) : turn :=
  mk_turn User [PImage (up_type g) (up_content g); PText replay_instruction].

(** Lines 134-161: the list [chat_history] built for a new question. *)
Definition chat_history (s : session) (prompt : string) : list turn :=
  match sess_file s with
  | Some g => [image_turn g]
  | None => []
  end
  ++ replay_rest (history s)
  ++ [mk_turn User [PText prompt]].

(** Lines 108-183: transcript and follow-up question.  When [response.text]
    raises, the assistant bubble opened at line 175 stays empty. *)
Definition chat_step (inp : inputs) (s : session) : session * list output :=
  match history s with
  | [] => (s, [])
  | _ :: _ =>
      let shown := [ODivider; OSubheader "Follow-up Questions"]
                     ++ render_history (history s) in
      match in_prompt inp with
      | Some q =>
          if truthy (Some q) then
            let req := chat_history s q in
            let asked := shown ++ [OChat "user" q; ORequest req] in
            match in_followup_resp inp with
            | Ok r =>
                (mk_session (sess_file s)
                   (history s ++ [mk_turn User [PText q]; mk_turn Model [PText r]]),
                 asked ++ [OChat "assistant" r])
            | ErrCall e =>
                (s, asked ++ [OError ("An error occurred during follow-up: " ++ e)%string])
            | ErrText e =>
                (s, asked ++ [OChatOpen "assistant";
                              OError ("An error occurred during follow-up: " ++ e)%string])
            end
          else (s, shown)
      | None => (s, shown)
      end
  end.

(** Lines 52-183, after the credential has been configured, in a rerun
    where [st.image] at line 61 succeeds or is not reached. *)
Definition script_body (inp : inputs) (s : session) : session * list output :=
  let '(s1, o1) := upload_step (in_upload inp) s in
  let '(s2, o2) := submit_step inp s1 in
  let '(s3, o3) := chat_step inp s2 in
  (s3, [OTitle "Medical Image Analytics";
        OSubheader "An application that can help users to identify medical images"]
         ++ o1 ++ o2 ++ o3).

(** The whole script: lines 22-24 stop it when no credential was found. *)
Definition app_run (c : config) (s : session) (inp : inputs) : session * list output :=
  match resolve_api_key c with
  | Some k =>
      if truthy (Some k) then
        let '(s', o) := script_body inp s in (s', OConfigure k :: o)
      else (s, [OError api_key_missing_msg; OStop])
  | None => (s, [OError api_key_missing_msg; OStop])
  end.

(** The whole script with line 61: [st.image] reads the upload with PIL;
    on bytes PIL cannot decode it raises, nothing catches the exception,
    and the rerun ends there with the traceback, before lines 64-69.  In
    every other rerun the script runs as [app_run]. *)
Definition image_error_detail : string :=
  "PIL.UnidentifiedImageError: cannot identify image file".

Definition app_rerun (c : config) (s : session) (inp : inputs) : session * list output :=
  match in_upload inp with
  | Some f =>
      if up_opens f then app_run c s inp
      else
        match resolve_api_key c with
        | Some k =>
            if truthy (Some k) then
              (s, [OConfigure k; OTitle "Medical Image Analytics";
                   OSubheader "An application that can help users to identify medical images";
                   OException image_error_detail])
            else (s, [OError api_key_missing_msg; OStop])
        | None => (s, [OError api_key_missing_msg; OStop])
        end
  | None => app_run c s inp
  end.

(** Sessions reachable from a fresh session by reruns. *)
Inductive reachable : session -> Prop :=
| reach_init : reachable init_session
| reach_step (c : config) (inp : inputs) (s : session) :
    reachable s -> reachable (fst (app_run c s inp)).

(** ** Spec-side reading of the configuration rule *)

(** Modelled on the spec's words (section 6): the first non-empty value
    among the sources, tried in order. *)
Fixpoint first_nonempty (sources : list (option string)) : option string :=
  match sources with
  | [] => None
  | Some k :: rest => if String.eqb k "" then first_nonempty rest else Some k
  | None :: rest => first_nonempty rest
  end.

(** ** Predicates on turns *)

Definition is_text_turn (t : turn) : bool :=
  match turn_parts t with
  | [PText _] => true
  | _ => false
  end.

Definition is_image_part (p : part) : bool :=
  match p with PImage _ _ => true | PText _ => false end.

Definition has_image (t : turn) : bool := existsb is_image_part (turn_parts t).

Definition is_err (r : call_result) : bool :=
  match r with Ok _ => false | ErrCall _ | ErrText _ => true end.

(** ** Concrete inputs *)

(** A 1x1 RGB PNG file: signature, IHDR, the given IDAT data (zlib
    stream of one filter byte and one pixel), IEND; the chunk CRCs are
    those of the bytes. *)
Definition png_1x1 (idat : list byte) (idat_crc : list byte) : list byte :=
  [x89; x50; x4e; x47; x0d; x0a; x1a; x0a;
   x00; x00; x00; x0d; x49; x48; x44; x52; x00; x00; x00; x01; x00; x00; x00; x01;
   x08; x02; x00; x00; x00; x90; x77; x53; xde;
   x00; x00; x00; x0c; x49; x44; x41; x54]
  ++ idat ++ idat_crc ++
  [x00; x00; x00; x00; x49; x45; x4e; x44; xae; x42; x60; x82].

(** Black, white and grey pixels. *)
Definition png : uploaded :=
  mk_uploaded "scan_a.png" "image/png"
    (png_1x1 [x78; xda; x63; x60; x60; x60; x00; x00; x00; x04; x00; x01]
             [xc8; xea; xeb; xf9]) true.
Definition scan_b : uploaded :=
  mk_uploaded "scan_b.png" "image/png"
    (png_1x1 [x78; xda; x63; xf8; xff; xff; x3f; x00; x05; xfe; x02; xfe]
             [x33; x12; x95; x14]) true.
(** Only the PNG signature: PIL cannot decode it. *)
Definition broken : uploaded :=
  mk_uploaded "scan_c.png" "image/png" [x89; x50; x4e; x47] false.
Definition cfg_file_only : config := mk_config (Some "AIza-test") None.
Definition cfg_none : config := mk_config None None.

Definition analyze_with (f : uploaded) (r : call_result) : inputs :=
  mk_inputs (Some f) true None r (ErrCall "unused").
Definition ask (f : uploaded) (q : string) (r : call_result) : inputs :=
  mk_inputs (Some f) false (Some q) (ErrCall "unused") r.
Definition idle (f : uploaded) : inputs :=
  mk_inputs (Some f) false None (ErrCall "unused") (ErrCall "unused").

Definition after_analysis : session :=
  fst (app_run cfg_file_only init_session (analyze_with png (Ok "Chest X-ray, no findings."))).

Example after_analysis_history :
  history after_analysis =
    [mk_turn User [PText sentinel]; mk_turn Model [PText "Chest X-ray, no findings."]].
Proof. reflexivity. Qed.

Example follow_up_replay_length :
  length (chat_history after_analysis "Is this serious?") = 3.
Proof. reflexivity. Qed.

Example follow_up_store_length :
  length (history (fst (app_run cfg_file_only after_analysis
                          (ask png "Is this serious?" (Ok "Not urgent."))))) = 4.
Proof. reflexivity. Qed.

Example new_image_resets :
  history (fst (app_run cfg_file_only after_analysis (idle scan_b))) = [].
Proof. reflexivity. Qed.

Example missing_key_halts :
  app_run cfg_none after_analysis (idle scan_b) =
    (after_analysis, [OError api_key_missing_msg; OStop]).
Proof. reflexivity. Qed.

(** ** Decomposition of one rerun *)

Lemma script_body_fst (inp : inputs) (s : session) :
  fst (script_body inp s) =
    fst (chat_step inp (fst (submit_step inp (fst (upload_step (in_upload inp) s))))).
Proof.
  unfold script_body.
  destruct (upload_step (in_upload inp) s) as [s1 o1]; simpl.
  destruct (submit_step inp s1) as [s2 o2]; simpl.
  destruct (chat_step inp s2) as [s3 o3]; reflexivity.
Qed.

Lemma script_body_snd (inp : inputs) (s : session) :
  let '(s1, o1) := upload_step (in_upload inp) s in
  let '(s2, o2) := submit_step inp s1 in
  snd (script_body inp s) =
    [OTitle "Medical Image Analytics";
     OSubheader "An application that can help users to identify medical images"]
      ++ o1 ++ o2 ++ snd (chat_step inp s2).
Proof.
  unfold script_body.
  destruct (upload_step (in_upload inp) s) as [s1 o1]; simpl.
  destruct (submit_step inp s1) as [s2 o2]; simpl.
  destruct (chat_step inp s2) as [s3 o3]; reflexivity.
Qed.

Lemma app_run_fst (c : config) (s : session) (inp : inputs) :
  fst (app_run c s inp) = s \/ fst (app_run c s inp) = fst (script_body inp s).
Proof.
  unfold app_run.
  destruct (resolve_api_key c) as [k|]; [|left; reflexivity].
  destruct (truthy (Some k)); [|left; reflexivity].
  right. destruct (script_body inp s). reflexivity.
Qed.

(** A rerun that stops at line 61 leaves the session as it was, so the
    sessions reachable with [app_rerun] are those reachable with [app_run]. *)
Lemma reachable_rerun (c : config) (s : session) (inp : inputs) :
  reachable s -> reachable (fst (app_rerun c s inp)).
Proof.
  intros R. unfold app_rerun.
  destruct (in_upload inp) as [f|]; [|apply reach_step, R].
  destruct (up_opens f); [apply reach_step, R|].
  destruct (resolve_api_key c) as [k|]; [destruct (truthy (Some k))|]; exact R.
Qed.

(** ** The turn store holds only single text parts *)

Lemma upload_step_history (u : option uploaded) (s : session) :
  history (fst (upload_step u s)) = [] \/ history (fst (upload_step u s)) = history s.
Proof.
  destruct u as [f|]; simpl; [|right; reflexivity].
  destruct (sess_file s) as [g|]; [|left; reflexivity].
  destruct (String.eqb (up_name g) (up_name f)); [right|left]; reflexivity.
Qed.

Lemma upload_step_file (f : uploaded) (s : session) :
  exists g, sess_file (fst (upload_step (Some f) s)) = Some g.
Proof.
  simpl. destruct (sess_file s) as [g|] eqn:E; [|eexists; reflexivity].
  destruct (String.eqb (up_name g) (up_name f)); simpl; eexists; eauto.
Qed.

Lemma submit_step_history (inp : inputs) (s : session) :
  exists added, history (fst (submit_step inp s)) = history s ++ added
                /\ Forall (fun t => is_text_turn t = true) added.
Proof.
  unfold submit_step.
  destruct (in_submit inp); [|exists []; rewrite app_nil_r; auto].
  destruct (in_upload inp); [|exists []; rewrite app_nil_r; auto].
  destruct (sess_file s); [|exists []; rewrite app_nil_r; auto].
  destruct (in_analysis_resp inp);
    try (exists []; rewrite app_nil_r; auto; fail).
  eexists; split; [reflexivity|].
  repeat constructor.
Qed.

Lemma chat_step_history (inp : inputs) (s : session) :
  exists added, history (fst (chat_step inp s)) = history s ++ added
                /\ Forall (fun t => is_text_turn t = true) added.
Proof.
  unfold chat_step.
  destruct (history s) as [|t h] eqn:Eh; [exists []; simpl; rewrite Eh; auto|].
  destruct (in_prompt inp) as [q|];
    [|exists []; simpl; rewrite app_nil_r, Eh; auto].
  destruct (truthy (Some q)); [|exists []; simpl; rewrite app_nil_r, Eh; auto].
  destruct (in_followup_resp inp);
    try (exists []; simpl; rewrite app_nil_r, Eh; auto; fail).
  eexists; split; [reflexivity|].
  repeat constructor.
Qed.

Lemma history_text_only (s : session) :
  reachable s -> Forall (fun t => is_text_turn t = true) (history s).
Proof.
  induction 1 as [|c inp s _ IH]; [constructor|].
  destruct (app_run_fst c s inp) as [E|E]; rewrite E; [exact IH|].
  rewrite script_body_fst.
  destruct (chat_step_history inp (fst (submit_step inp (fst (upload_step (in_upload inp) s)))))
    as [a3 [-> F3]].
  destruct (submit_step_history inp (fst (upload_step (in_upload inp) s))) as [a2 [-> F2]].
  apply Forall_app; split; [|exact F3].
  apply Forall_app; split; [|exact F2].
  destruct (upload_step_history (in_upload inp) s) as [-> | ->]; [constructor|exact IH].
Qed.

Lemma replay_rest_incl (h : list turn) : incl (replay_rest h) h.
Proof.
  induction h as [|t h IH]; simpl; [apply incl_refl|].
  destruct (part0_is t sentinel).
  - apply incl_tl, IH.
  - apply incl_cons; [left; reflexivity|]. apply incl_tl, IH.
Qed.

Lemma text_turn_no_image (t : turn) : is_text_turn t = true -> has_image t = false.
Proof.
  unfold is_text_turn, has_image.
  destruct (turn_parts t) as [|[|] [|]]; simpl; congruence.
Qed.

Lemma replay_rest_no_image (h : list turn) :
  Forall (fun t => is_text_turn t = true) h ->
  Forall (fun t => has_image t = false) (replay_rest h).
Proof.
  intros F. apply Forall_forall. intros t Ht.
  apply text_turn_no_image.
  exact (proj1 (Forall_forall _ _) F t (replay_rest_incl h t Ht)).
Qed.

(** ** Replay reconstruction *)

Lemma chat_history_with_file (s : session) (g : uploaded) (q : string) :
  sess_file s = Some g ->
  chat_history s q = image_turn g :: replay_rest (history s) ++ [mk_turn User [PText q]].
Proof. intros E. unfold chat_history. rewrite E. reflexivity. Qed.

(** C1: in every reachable session holding an image, the list sent for a
    new question starts with the one turn [user: [image, instruction]],
    ends with [user: [question]], and no other turn carries image data. *)
Theorem replay_starts_with_image_ends_with_question
  (s : session) (g : uploaded) (q : string) :
  reachable s -> sess_file s = Some g ->
  exists mid,
    chat_history s q =
      mk_turn User [PImage (up_type g) (up_content g); PText replay_instruction]
        :: mid ++ [mk_turn User [PText q]]
    /\ Forall (fun t => has_image t = false) (mid ++ [mk_turn User [PText q]]).
Proof.
  intros R E. exists (replay_rest (history s)).
  split; [exact (chat_history_with_file s g q E)|].
  apply Forall_app; split.
  - apply replay_rest_no_image, history_text_only, R.
  - repeat constructor.
Qed.

Lemma replay_starts_with_image_ends_with_question_witness :
  reachable after_analysis /\ sess_file after_analysis = Some png /\
  exists mid,
    chat_history after_analysis "Is this serious?" =
      mk_turn User [PImage (up_type png) (up_content png); PText replay_instruction]
        :: mid ++ [mk_turn User [PText "Is this serious?"]]
    /\ Forall (fun t => has_image t = false) (mid ++ [mk_turn User [PText "Is this serious?"]]).
Proof.
  assert (R : reachable after_analysis) by (apply reach_step, reach_init).
  split; [exact R|]. split; [reflexivity|].
  apply (replay_starts_with_image_ends_with_question after_analysis png); [exact R|reflexivity].
Defined.

(** C2: the replay loop (lines 152-158) skips a stored turn on its text
    alone, whatever its role, while the comment of lines 154-155 says the
    model's answer to the sentinel request must be replayed and the render
    loop (line 115) checks the role.  When the analysis text is the
    sentinel itself, the follow-up request carries no analysis: only the
    image turn and the question. *)
Lemma replay_drops_sentinel_text_analysis :
  let s1 := fst (app_rerun cfg_file_only init_session (analyze_with png (Ok sentinel))) in
  history s1 = [mk_turn User [PText sentinel]; mk_turn Model [PText sentinel]]
  /\ In (ORequest [image_turn png; mk_turn User [PText "Is this serious?"]])
        (snd (app_rerun cfg_file_only s1 (ask png "Is this serious?" (Ok "No."))))
  /\ length (chat_history s1 "Is this serious?") = 2.
Proof.
  split; [reflexivity|]. split; [|reflexivity].
  vm_compute. repeat (first [left; reflexivity | right]).
Qed.

(** C9: every stored turn of a reachable session is a single text part,
    so only the synthesized first turn of a replay carries image data. *)
Theorem store_text_only_image_only_first
  (s : session) :
  reachable s ->
  Forall (fun t => is_text_turn t = true) (history s)
  /\ forall q, Forall (fun t => has_image t = false) (tl (chat_history s q)).
Proof.
  intros R. pose proof (history_text_only s R) as F. split; [exact F|].
  intros q. unfold chat_history.
  assert (T : Forall (fun t => has_image t = false)
                (replay_rest (history s) ++ [mk_turn User [PText q]])).
  { apply Forall_app; split; [apply replay_rest_no_image, F|repeat constructor]. }
  destruct (sess_file s); simpl; [exact T|].
  destruct (replay_rest (history s)) as [|t r] eqn:E; simpl; [constructor|].
  inversion T; subst. assumption.
Qed.

Lemma store_text_only_image_only_first_witness :
  reachable after_analysis /\
  Forall (fun t => is_text_turn t = true) (history after_analysis).
Proof.
  assert (R : reachable after_analysis) by (apply reach_step, reach_init).
  split; [exact R|].
  exact (proj1 (store_text_only_image_only_first after_analysis R)).
Defined.

(** ** Failed calls *)

(** C3: a failing analysis call or a failing follow-up call leaves the
    session unchanged, and once the request has been sent an error
    message is shown. *)
Theorem failed_call_leaves_store_unchanged (inp : inputs) (s : session) :
  (is_err (in_analysis_resp inp) = true ->
     fst (submit_step inp s) = s
     /\ (forall req, In (ORequest req) (snd (submit_step inp s)) ->
           exists m, In (OError m) (snd (submit_step inp s))))
  /\ (is_err (in_followup_resp inp) = true ->
     fst (chat_step inp s) = s
     /\ (forall req, In (ORequest req) (snd (chat_step inp s)) ->
           exists m, In (OError m) (snd (chat_step inp s)))).
Proof.
  split; intros Herr.
  - unfold submit_step.
    destruct (in_submit inp); [|simpl; split; [reflexivity|intros ? []]].
    destruct (in_upload inp);
      [|simpl; split; [reflexivity|intros ? [H|[]]; discriminate]].
    destruct (sess_file s);
      [|simpl; split; [reflexivity|intros ? [H|[]]; discriminate]].
    destruct (in_analysis_resp inp) as [r|e|e]; simpl in Herr; [discriminate| |];
      simpl; split; try reflexivity; intros _ _; eexists; simpl; tauto.
  - unfold chat_step.
    destruct (history s) as [|t h] eqn:Eh; [simpl; split; [reflexivity|intros ? []]|].
    assert (NoReq : forall req, ~ In (ORequest req)
                      ([ODivider; OSubheader "Follow-up Questions"]
                         ++ render_history (t :: h))).
    { intros req Hin. apply in_app_or in Hin. destruct Hin as [[H|[H|[]]]|Hin];
        [discriminate|discriminate|].
      clear Eh. revert Hin. generalize (t :: h) as l. induction l as [|u l IH];
        simpl; [tauto|].
      intros Hin. apply in_app_or in Hin. destruct Hin as [Hin|Hin]; [|exact (IH Hin)].
      unfold render_turn in Hin.
      destruct (_ && _); [destruct Hin|].
      destruct (_ && _); [destruct Hin|].
      destruct Hin as [H|[]]; discriminate. }
    destruct (in_prompt inp) as [q|];
      [|simpl; split; [reflexivity|intros req Hin; destruct (NoReq req Hin)]].
    destruct (truthy (Some q));
      [|simpl; split; [reflexivity|intros req Hin; destruct (NoReq req Hin)]].
    destruct (in_followup_resp inp) as [r|e|e]; simpl in Herr; [discriminate| |];
      cbn [fst snd]; split; try reflexivity; intros _ _; eexists;
      apply in_or_app; right; first [left; reflexivity | right; left; reflexivity].
Qed.

Lemma failed_call_leaves_store_unchanged_witness :
  fst (submit_step (analyze_with png (ErrCall "quota exceeded")) after_analysis)
    = after_analysis
  /\ fst (chat_step (ask png "Is this serious?" (ErrText "blocked")) after_analysis)
    = after_analysis.
Proof.
  split.
  - exact (proj1 (proj1 (failed_call_leaves_store_unchanged
                           (analyze_with png (ErrCall "quota exceeded")) after_analysis)
                        eq_refl)).
  - exact (proj1 (proj2 (failed_call_leaves_store_unchanged
                           (ask png "Is this serious?" (ErrText "blocked")) after_analysis)
                        eq_refl)).
Defined.

(** ** Image change *)

(** C4 as stated fails: a file of a new name whose bytes PIL cannot
    decode stops the rerun at line 61, before the reset of lines 64-69,
    so the old file and the old history stay. *)
Lemma undecodable_new_name_keeps_store :
  let s1 := fst (app_rerun cfg_file_only after_analysis (idle broken)) in
  sess_file s1 = Some png /\ history s1 = history after_analysis
  /\ history after_analysis <> [].
Proof. split; [reflexivity|]. split; [reflexivity|]. vm_compute. discriminate. Qed.

(** C4 (amended): a file of a new name that [st.image] can display is
    stored with an empty history, and the rerun then behaves as from a
    fresh session; a file it cannot decode ends the rerun at line 61 with
    the session unchanged and no request sent. *)
Theorem new_image_name_resets_store_when_displayed
  (c : config) (f : uploaded) (s : session) (inp : inputs) :
  (forall g, sess_file s = Some g -> up_name g <> up_name f) ->
  in_upload inp = Some f ->
  (up_opens f = true ->
     upload_step (Some f) s = (mk_session (Some f) [], [OShowImage f])
     /\ app_rerun c s inp = app_run c s inp
     /\ script_body inp s = script_body inp init_session)
  /\ (up_opens f = false ->
     fst (app_rerun c s inp) = s
     /\ forall req, ~ In (ORequest req) (snd (app_rerun c s inp))).
Proof.
  intros Hname Hup.
  assert (U : upload_step (Some f) s = (mk_session (Some f) [], [OShowImage f])).
  { simpl. destruct (sess_file s) as [g|] eqn:E; [|reflexivity].
    destruct (String.eqb_spec (up_name g) (up_name f)) as [Heq|_];
      [destruct (Hname g eq_refl Heq)|reflexivity]. }
  split; intros Ho.
  - split; [exact U|]. split.
    + unfold app_rerun. rewrite Hup, Ho. reflexivity.
    + unfold script_body. rewrite Hup, U. reflexivity.
  - unfold app_rerun. rewrite Hup, Ho.
    destruct (resolve_api_key c) as [k|]; [destruct (truthy (Some k))|];
      cbn [fst snd]; (split; [reflexivity|]); intros req Hin;
      repeat (destruct Hin as [Hin|Hin]; [discriminate|]); exact Hin.
Qed.

Lemma new_image_name_resets_store_when_displayed_witness :
  upload_step (Some scan_b) after_analysis = (mk_session (Some scan_b) [], [OShowImage scan_b])
  /\ fst (app_rerun cfg_file_only after_analysis (idle broken)) = after_analysis.
Proof.
  assert (N : forall f, up_name f <> up_name png ->
                forall g, sess_file after_analysis = Some g -> up_name g <> up_name f).
  { intros f Hf g Hg. unfold after_analysis in Hg. vm_compute in Hg.
    injection Hg as <-. intros E. apply Hf. symmetry. exact E. }
  split.
  - exact (proj1 (proj1 (new_image_name_resets_store_when_displayed cfg_file_only scan_b
                           after_analysis (idle scan_b) (N scan_b ltac:(discriminate)) eq_refl)
                        eq_refl)).
  - exact (proj1 (proj2 (new_image_name_resets_store_when_displayed cfg_file_only broken
                           after_analysis (idle broken) (N broken ltac:(discriminate)) eq_refl)
                        eq_refl)).
Defined.

(** ** Credential *)

(** C5: the script configures the first non-empty credential among the
    local file and the secret store, in that order; when there is none it
    shows one error, stops, and leaves the session untouched. *)
Theorem api_key_first_nonempty_or_halt (c : config) (s : session) (inp : inputs) :
  app_run c s inp =
    match first_nonempty [cfg_file c; cfg_secret c] with
    | Some k => let '(s', o) := script_body inp s in (s', OConfigure k :: o)
    | None => (s, [OError api_key_missing_msg; OStop])
    end.
Proof.
  unfold app_run, resolve_api_key.
  destruct c as [[k|] [v|]]; simpl;
    repeat match goal with
           | |- context [String.eqb ?a ""] => destruct (String.eqb a "") eqn:?
           end; simpl; try reflexivity;
    repeat match goal with
           | H : String.eqb ?a "" = _ |- _ => rewrite H
           end; reflexivity.
Qed.

(** ** Initial analysis *)

(** C6: with an image uploaded and the button pressed, a successful call
    appends exactly [user: [sentinel]] then [model: [analysis]]. *)
Theorem analysis_appends_two_turns
  (inp : inputs) (s : session) (f : uploaded) (r : string) :
  in_upload inp = Some f -> in_submit inp = true -> in_analysis_resp inp = Ok r ->
  let s1 := fst (upload_step (Some f) s) in
  history (fst (submit_step inp s1)) =
    history s1 ++ [mk_turn User [PText sentinel]; mk_turn Model [PText r]].
Proof.
  intros Hu Hs Hr s1.
  destruct (upload_step_file f s) as [g Hg].
  unfold submit_step. rewrite Hs, Hu. unfold s1. rewrite Hg, Hr. reflexivity.
Qed.

Lemma analysis_appends_two_turns_witness :
  history (fst (submit_step (analyze_with scan_b (Ok "MRI, knee."))
                  (fst (upload_step (Some scan_b) after_analysis)))) =
    [mk_turn User [PText sentinel]; mk_turn Model [PText "MRI, knee."]].
Proof.
  exact (analysis_appends_two_turns (analyze_with scan_b (Ok "MRI, knee.")) after_analysis
           scan_b "MRI, knee." eq_refl eq_refl eq_refl).
Defined.

(** ** Transcript *)

Lemma render_history_app (h1 h2 : list turn) :
  render_history (h1 ++ h2) = render_history h1 ++ render_history h2.
Proof.
  induction h1 as [|t h1 IH]; simpl; [reflexivity|].
  rewrite IH, app_assoc. reflexivity.
Qed.

Lemma render_turn_no_user_sentinel (t : turn) :
  ~ In (OChat "user" sentinel) (render_turn t).
Proof.
  unfold render_turn. destruct t as [[|] ps]; simpl.
  - destruct (part0_is (mk_turn User ps) sentinel) eqn:E; simpl; [tauto|].
    intros [H|[]]. injection H as Hx.
    unfold part0_is, part0_text in *. simpl in *.
    destruct ps as [|[|x] ps]; try discriminate.
    subst x. rewrite String.eqb_refl in E. discriminate.
  - destruct (part0_starts (mk_turn Model ps) analysis_prefix); simpl; [tauto|].
    intros [H|[]]. discriminate.
Qed.

(** C7 as stated fails: only user turns are checked against the sentinel,
    so an initial analysis whose text is the sentinel is shown in the
    transcript of the next rerun; and a follow-up typed as the sentinel is
    echoed as a user message when it is submitted (lines 129-130). *)
Lemma transcript_sentinel_counterexample :
  let s1 := fst (app_rerun cfg_file_only init_session (analyze_with png (Ok sentinel))) in
  In (OChat "model" sentinel) (snd (app_rerun cfg_file_only s1 (idle png)))
  /\ In (OChat "user" sentinel)
        (snd (app_rerun cfg_file_only after_analysis (ask png sentinel (Ok "See above.")))).
Proof. split; vm_compute; repeat (first [left; reflexivity | right]). Qed.

(** C7 (amended): the transcript of the stored history never shows a user
    message whose text is the sentinel; a model turn with that text is
    shown as a model message, and a question typed as the sentinel is
    echoed once, as a user message, when it is submitted. *)
Theorem transcript_hides_user_sentinel :
  (forall h, ~ In (OChat "user" sentinel) (render_history h))
  /\ (forall h1 h2,
        render_history (h1 ++ mk_turn Model [PText sentinel] :: h2) =
          render_history h1 ++ OChat "model" sentinel :: render_history h2)
  /\ (forall inp s, history s <> [] -> in_prompt inp = Some sentinel ->
        In (OChat "user" sentinel) (snd (chat_step inp s))).
Proof.
  split; [|split].
  - induction h as [|t h IH]; simpl; [tauto|].
    intros Hin. apply in_app_or in Hin.
    destruct Hin as [Hin|Hin]; [exact (render_turn_no_user_sentinel t Hin)|exact (IH Hin)].
  - intros h1 h2. rewrite render_history_app. reflexivity.
  - intros inp s Hh Hp. unfold chat_step.
    destruct (history s) as [|t h]; [contradiction|].
    rewrite Hp. change (truthy (Some sentinel)) with true.
    destruct (in_followup_resp inp); cbv zeta; cbn [snd];
      apply in_or_app; left; apply in_or_app; right; left; reflexivity.
Qed.

Lemma transcript_hides_user_sentinel_witness :
  In (OChat "user" sentinel) (snd (chat_step (ask png sentinel (Ok "See above.")) after_analysis)).
Proof.
  exact (proj2 (proj2 transcript_hides_user_sentinel)
           (ask png sentinel (Ok "See above.")) after_analysis ltac:(discriminate) eq_refl).
Defined.

(** ** Button without image *)

(** C8: pressing the button with no file in the uploader only shows a
    warning; without a follow-up question the rerun sends no request and
    leaves the session unchanged. *)
Theorem submit_without_image_only_warns (inp : inputs) (s : session) :
  in_submit inp = true -> in_upload inp = None ->
  submit_step inp s = (s, [OWarning no_image_msg])
  /\ (in_prompt inp = None ->
        fst (script_body inp s) = s
        /\ forall req, ~ In (ORequest req) (snd (script_body inp s))).
Proof.
  intros Hs Hu.
  assert (S : submit_step inp s = (s, [OWarning no_image_msg])).
  { unfold submit_step. rewrite Hs, Hu. reflexivity. }
  split; [exact S|]. intros Hp.
  assert (C : chat_step inp s =
                (s, match history s with
                    | [] => []
                    | _ :: _ => [ODivider; OSubheader "Follow-up Questions"]
                                  ++ render_history (history s)
                    end)).
  { unfold chat_step. rewrite Hp. destruct (history s); reflexivity. }
  unfold script_body. rewrite Hu. simpl. rewrite S. simpl. rewrite C. simpl.
  split; [reflexivity|].
  intros req Hin.
  repeat (destruct Hin as [Hin|Hin]; [discriminate|]).
  destruct (history s) as [|t h]; [exact Hin|].
  destruct Hin as [Hin|[Hin|Hin]]; try discriminate.
  clear -Hin. revert Hin. generalize (t :: h) as l.
  induction l as [|u l IH]; simpl; [tauto|].
  intros Hin. apply in_app_or in Hin. destruct Hin as [Hin|Hin]; [|exact (IH Hin)].
  unfold render_turn in Hin.
  destruct (_ && _); [destruct Hin|].
  destruct (_ && _); [destruct Hin|].
  destruct Hin as [H|[]]; discriminate.
Qed.

Lemma submit_without_image_only_warns_witness :
  submit_step (mk_inputs None true None (Ok "unused") (Ok "unused")) after_analysis
    = (after_analysis, [OWarning no_image_msg]).
Proof.
  exact (proj1 (submit_without_image_only_warns
                  (mk_inputs None true None (Ok "unused") (Ok "unused")) after_analysis
                  eq_refl eq_refl)).
Defined.

(** ** A question typed as the sentinel *)

(** C10: a follow-up question equal to the sentinel is stored as an
    ordinary user turn, and from then on every replay skips it and every
    transcript hides it. *)
Theorem sentinel_question_hidden_afterwards
  (inp : inputs) (s : session) (r : string) :
  history s <> [] -> in_prompt inp = Some sentinel -> in_followup_resp inp = Ok r ->
  history (fst (chat_step inp s)) =
    history s ++ [mk_turn User [PText sentinel]; mk_turn Model [PText r]]
  /\ forall h1 h2,
       replay_rest (h1 ++ mk_turn User [PText sentinel] :: h2) =
         replay_rest h1 ++ replay_rest h2
       /\ render_history (h1 ++ mk_turn User [PText sentinel] :: h2) =
            render_history h1 ++ render_history h2.
Proof.
  intros Hh Hp Hr. split.
  - unfold chat_step. destruct (history s) as [|t h] eqn:E; [contradiction|].
    rewrite Hp. simpl. rewrite Hr. reflexivity.
  - intros h1 h2. split.
    + induction h1 as [|t h1 IH]; simpl; [reflexivity|].
      destruct (part0_is t sentinel); simpl; rewrite IH; reflexivity.
    + rewrite render_history_app. reflexivity.
Qed.

Lemma sentinel_question_hidden_afterwards_witness :
  history (fst (chat_step (ask png sentinel (Ok "See above.")) after_analysis)) =
    history after_analysis ++
      [mk_turn User [PText sentinel]; mk_turn Model [PText "See above."]].
Proof.
  exact (proj1 (sentinel_question_hidden_afterwards (ask png sentinel (Ok "See above."))
                  after_analysis "See above." ltac:(discriminate) eq_refl eq_refl)).
Defined.

(** * Further properties of the script *)

(** ** Helpers *)

Lemma upload_same_name (f g : uploaded) (s : session) :
  sess_file s = Some g -> up_name g = up_name f ->
  upload_step (Some f) s = (s, [OShowImage f]).
Proof.
  intros E N. simpl. rewrite E, N, String.eqb_refl. reflexivity.
Qed.

Lemma render_history_no_request (h : list turn) (req : list turn) :
  ~ In (ORequest req) (render_history h).
Proof.
  induction h as [|u l IH]; simpl; [tauto|].
  intros Hin. apply in_app_or in Hin. destruct Hin as [Hin|Hin]; [|exact (IH Hin)].
  unfold render_turn in Hin.
  destruct (_ && _); [destruct Hin|].
  destruct (_ && _); [destruct Hin|].
  destruct Hin as [H|[]]; discriminate.
Qed.

Lemma submit_step_file (inp : inputs) (s : session) :
  sess_file (fst (submit_step inp s)) = sess_file s.
Proof.
  unfold submit_step.
  destruct (in_submit inp), (in_upload inp), (sess_file s) eqn:E, (in_analysis_resp inp);
    simpl; rewrite ?E; reflexivity.
Qed.

Lemma chat_step_file (inp : inputs) (s : session) :
  sess_file (fst (chat_step inp s)) = sess_file s.
Proof.
  unfold chat_step.
  destruct (history s); [reflexivity|].
  destruct (in_prompt inp) as [q|]; [|reflexivity].
  destruct (truthy (Some q)); [|reflexivity].
  destruct (in_followup_resp inp); reflexivity.
Qed.

Lemma submit_step_no_file (inp : inputs) (s : session) :
  sess_file s = None -> fst (submit_step inp s) = s.
Proof.
  intros E. unfold submit_step. rewrite E.
  destruct (in_submit inp), (in_upload inp); reflexivity.
Qed.

Lemma chat_step_empty (inp : inputs) (s : session) :
  history s = [] -> chat_step inp s = (s, []).
Proof. intros E. unfold chat_step. rewrite E. reflexivity. Qed.

(** The stored history as question/answer pairs. *)
Definition pair_turns (qa : string * string) : list turn :=
  [mk_turn User [PText (fst qa)]; mk_turn Model [PText (snd qa)]].

Definition paired (h : list turn) : Prop :=
  exists pairs, h = flat_map pair_turns pairs.

Lemma paired_app_pair (h : list turn) (q a : string) :
  paired h -> paired (h ++ [mk_turn User [PText q]; mk_turn Model [PText a]]).
Proof.
  intros [pairs ->]. exists (pairs ++ [(q, a)]).
  rewrite flat_map_app. reflexivity.
Qed.

Lemma submit_step_paired (inp : inputs) (s : session) :
  paired (history s) -> paired (history (fst (submit_step inp s))).
Proof.
  intros P. unfold submit_step.
  destruct (in_submit inp), (in_upload inp), (sess_file s), (in_analysis_resp inp);
    try exact P.
  apply paired_app_pair, P.
Qed.

Lemma chat_step_paired (inp : inputs) (s : session) :
  paired (history s) -> paired (history (fst (chat_step inp s))).
Proof.
  intros P. unfold chat_step.
  destruct (history s) as [|t h] eqn:E;
    [|destruct (in_prompt inp) as [q|];
      [destruct (truthy (Some q)); [destruct (in_followup_resp inp)|]|]];
    cbn [fst history];
    first [ exact P | rewrite E in *; exact P
          | apply paired_app_pair; first [exact P | rewrite <- E; exact P] ].
Qed.

Lemma upload_step_paired (u : option uploaded) (s : session) :
  paired (history s) -> paired (history (fst (upload_step u s))).
Proof.
  intros P. destruct (upload_step_history u s) as [-> | ->]; [exists []; reflexivity|exact P].
Qed.

Lemma submit_step_request (inp : inputs) (s : session) (f g : uploaded) :
  in_submit inp = true -> in_upload inp = Some f -> sess_file s = Some g ->
  exists rest, snd (submit_step inp s) = ORequest (analysis_request g) :: rest.
Proof.
  intros Hs Hu Hg. unfold submit_step. rewrite Hs, Hu, Hg.
  destruct (in_analysis_resp inp); eexists; reflexivity.
Qed.

Lemma replay_rest_app (h1 h2 : list turn) :
  replay_rest (h1 ++ h2) = replay_rest h1 ++ replay_rest h2.
Proof.
  induction h1 as [|t h1 IH]; simpl; [reflexivity|].
  destruct (part0_is t sentinel); simpl; rewrite IH; reflexivity.
Qed.

Lemma app_run_cases (c : config) (s : session) (inp : inputs) :
  app_run c s inp = (s, [OError api_key_missing_msg; OStop])
  \/ exists k, app_run c s inp = (fst (script_body inp s), OConfigure k :: snd (script_body inp s)).
Proof.
  unfold app_run.
  destruct (resolve_api_key c) as [k|]; [|left; reflexivity].
  destruct (truthy (Some k)); [|left; reflexivity].
  right. exists k. destruct (script_body inp s). reflexivity.
Qed.

(** The file in the session and the history are unchanged by the upload
    widget when it is empty or holds a file of the stored name. *)
Definition keeps_image (inp : inputs) (s : session) : Prop :=
  in_upload inp = None
  \/ exists f g, in_upload inp = Some f /\ sess_file s = Some g /\ up_name g = up_name f.

Lemma keeps_image_upload (inp : inputs) (s : session) :
  keeps_image inp s -> fst (upload_step (in_upload inp) s) = s.
Proof.
  intros [Hu|[f [g [Hu [Hg Hn]]]]]; rewrite Hu; [reflexivity|].
  rewrite (upload_same_name f g s Hg Hn). reflexivity.
Qed.

Definition reupload : uploaded :=
  mk_uploaded "scan_a.png" "image/png"
    (png_1x1 [x78; xda; x63; x68; x68; x68; x00; x00; x03; x04; x01; x81]
             [x75; x2e; x01; xbc]) true.

(** X1: uploading a different file under the stored name changes nothing
    in the session, and pressing the button then sends the stored bytes,
    not the new upload. *)
Theorem same_name_upload_keeps_stored_file
  (inp : inputs) (s : session) (f g : uploaded) :
  in_upload inp = Some f -> sess_file s = Some g -> up_name g = up_name f ->
  in_submit inp = true ->
  fst (upload_step (Some f) s) = s
  /\ In (ORequest [mk_turn User [PImage (up_type g) (up_content g); PText analysis_instruction]])
        (snd (script_body inp s)).
Proof.
  intros Hu Hg Hn Hs.
  pose proof (upload_same_name f g s Hg Hn) as U.
  split; [rewrite U; reflexivity|].
  pose proof (script_body_snd inp s) as E. rewrite Hu, U in E.
  destruct (submit_step_request inp s f g Hs Hu Hg) as [rest Hr].
  destruct (submit_step inp s) as [s2 o2]. simpl in Hr. subst o2.
  rewrite E. apply in_or_app; right. apply in_or_app; right.
  apply in_or_app; left. left. reflexivity.
Qed.

Lemma same_name_upload_keeps_stored_file_witness :
  fst (upload_step (Some reupload) after_analysis) = after_analysis
  /\ In (ORequest [mk_turn User [PImage (up_type png) (up_content png); PText analysis_instruction]])
        (snd (script_body (analyze_with reupload (Ok "again")) after_analysis)).
Proof.
  exact (same_name_upload_keeps_stored_file (analyze_with reupload (Ok "again"))
           after_analysis reupload png eq_refl eq_refl eq_refl eq_refl).
Defined.

(** X2: a model turn starting with the analysis heading is left out of the
    transcript but is still replayed to the model on a follow-up. *)
Theorem analysis_block_hidden_but_replayed (h1 h2 : list turn) (a : string) :
  String.prefix analysis_prefix a = true ->
  render_history (h1 ++ mk_turn Model [PText a] :: h2) = render_history h1 ++ render_history h2
  /\ replay_rest (h1 ++ mk_turn Model [PText a] :: h2)
       = replay_rest h1 ++ mk_turn Model [PText a] :: replay_rest h2.
Proof.
  intros Hp. split.
  - rewrite render_history_app. simpl.
    unfold render_turn, part0_starts. simpl. rewrite Hp. reflexivity.
  - rewrite replay_rest_app. simpl. unfold part0_is. simpl.
    destruct (String.eqb_spec a sentinel) as [->|_]; [discriminate Hp|reflexivity].
Qed.

Lemma analysis_block_hidden_but_replayed_witness :
  render_history [mk_turn Model [PText "1.  **Detailed Description**: chest X-ray"]] = [].
Proof.
  exact (proj1 (analysis_block_hidden_but_replayed [] []
                  "1.  **Detailed Description**: chest X-ray" eq_refl)).
Defined.

(** ** Invariants of reachable sessions *)

Lemma history_needs_file (s : session) :
  reachable s -> history s = [] \/ sess_file s <> None.
Proof.
  induction 1 as [|c inp s _ IH]; [left; reflexivity|].
  destruct (app_run_fst c s inp) as [E|E]; rewrite E; [exact IH|].
  rewrite script_body_fst.
  set (s1 := fst (upload_step (in_upload inp) s)).
  assert (I1 : history s1 = [] \/ sess_file s1 <> None).
  { unfold s1. destruct (in_upload inp) as [f|]; [|exact IH].
    right. destruct (upload_step_file f s) as [g ->]. discriminate. }
  set (s2 := fst (submit_step inp s1)).
  assert (I2 : history s2 = [] \/ sess_file s2 <> None).
  { unfold s2. rewrite submit_step_file.
    destruct (sess_file s1) eqn:F; [right; discriminate|].
    rewrite (submit_step_no_file inp s1 F). exact I1. }
  rewrite chat_step_file.
  destruct (history s2) eqn:H2; [|destruct I2 as [I2|I2]; [congruence|right; exact I2]].
  rewrite (chat_step_empty inp s2 H2). left. exact H2.
Qed.

(** X3: in a reachable session, a non-empty history implies a stored file,
    so the replay for any follow-up starts with the image turn. *)
Theorem history_implies_image_turn_first (s : session) :
  reachable s -> history s <> [] ->
  exists g, sess_file s = Some g /\ forall q, hd_error (chat_history s q) = Some (image_turn g).
Proof.
  intros R Hh. destruct (history_needs_file s R) as [E|E]; [contradiction|].
  destruct (sess_file s) as [g|] eqn:F; [|contradiction].
  exists g. split; [reflexivity|]. intros q. unfold chat_history. rewrite F. reflexivity.
Qed.

Lemma history_implies_image_turn_first_witness :
  exists g, sess_file after_analysis = Some g
            /\ forall q, hd_error (chat_history after_analysis q) = Some (image_turn g).
Proof.
  apply history_implies_image_turn_first; [apply reach_step, reach_init|discriminate].
Defined.

(** X4: in a reachable session the history is a sequence of pairs, a user
    text turn followed by a model text turn. *)
Theorem history_alternates_in_pairs (s : session) :
  reachable s -> exists pairs, history s = flat_map pair_turns pairs.
Proof.
  induction 1 as [|c inp s _ IH]; [exists []; reflexivity|].
  destruct (app_run_fst c s inp) as [E|E]; rewrite E; [exact IH|].
  rewrite script_body_fst.
  apply chat_step_paired, submit_step_paired, upload_step_paired, IH.
Qed.

Lemma history_alternates_in_pairs_witness :
  exists pairs, history after_analysis = flat_map pair_turns pairs.
Proof. apply history_alternates_in_pairs, reach_step, reach_init. Defined.

(** ** Reruns *)

(** X5: a rerun without a new image, without the button and without a
    question leaves the session unchanged and sends no request. *)
Theorem idle_rerun_changes_nothing (c : config) (s : session) (inp : inputs) :
  keeps_image inp s -> in_submit inp = false -> in_prompt inp = None ->
  fst (app_run c s inp) = s /\ forall req, ~ In (ORequest req) (snd (app_run c s inp)).
Proof.
  intros K Hs Hp.
  assert (U : fst (upload_step (in_upload inp) s) = s) by exact (keeps_image_upload inp s K).
  assert (O1 : forall req, ~ In (ORequest req) (snd (upload_step (in_upload inp) s))).
  { intros req. destruct (in_upload inp); simpl; [intros [H|[]]; discriminate|tauto]. }
  assert (S : submit_step inp s = (s, [])) by (unfold submit_step; rewrite Hs; reflexivity).
  assert (C : forall req, fst (chat_step inp s) = s /\ ~ In (ORequest req) (snd (chat_step inp s))).
  { intros req. unfold chat_step. destruct (history s) as [|t l]; [simpl; tauto|].
    rewrite Hp. simpl. split; [reflexivity|].
    intros [H|[H|H]]; try discriminate. exact (render_history_no_request (t :: l) req H). }
  assert (B : fst (script_body inp s) = s
              /\ forall req, ~ In (ORequest req) (snd (script_body inp s))).
  { pose proof (script_body_snd inp s) as E.
    rewrite script_body_fst.
    destruct (upload_step (in_upload inp) s) as [s1 o1]. simpl in U, O1. subst s1.
    change (fst (s, o1)) with s. rewrite S in E |- *. cbn [fst snd] in E |- *.
    split; [exact (proj1 (C [])) |].
    intros req Hin. rewrite E, app_nil_l in Hin.
    apply in_app_or in Hin. destruct Hin as [[H|[H|[]]]|Hin]; try discriminate.
    apply in_app_or in Hin. destruct Hin as [Hin|Hin]; [exact (O1 req Hin)|].
    exact (proj2 (C req) Hin). }
  destruct (app_run_cases c s inp) as [E|[k E]]; rewrite E; simpl.
  - split; [reflexivity|]. intros req [H|[H|[]]]; discriminate.
  - split; [exact (proj1 B)|]. intros req [H|H]; [discriminate|exact (proj2 B req H)].
Qed.

Lemma idle_rerun_changes_nothing_witness :
  fst (app_run cfg_file_only after_analysis (idle png)) = after_analysis.
Proof.
  refine (proj1 (idle_rerun_changes_nothing cfg_file_only after_analysis (idle png) _
                   eq_refl eq_refl)).
  right. exists png, png. split; [reflexivity|]. split; reflexivity.
Defined.

(** X6: as long as the image is not replaced, a rerun only appends whole
    question/answer pairs to the history. *)
Theorem history_append_only_same_image (c : config) (s : session) (inp : inputs) :
  keeps_image inp s ->
  exists pairs, history (fst (app_run c s inp)) = history s ++ flat_map pair_turns pairs.
Proof.
  intros K.
  assert (P2 : forall s' inp', exists pairs,
             history (fst (submit_step inp' s')) = history s' ++ flat_map pair_turns pairs).
  { intros s' inp'. unfold submit_step.
    destruct (in_submit inp'), (in_upload inp'), (sess_file s'), (in_analysis_resp inp');
      try (exists []; rewrite app_nil_r; reflexivity).
    exists [(sentinel, text)]. reflexivity. }
  assert (P3 : forall s' inp', exists pairs,
             history (fst (chat_step inp' s')) = history s' ++ flat_map pair_turns pairs).
  { intros s' inp'. unfold chat_step.
    destruct (history s') as [|t h] eqn:E;
      [|destruct (in_prompt inp') as [q|];
        [destruct (truthy (Some q)); [destruct (in_followup_resp inp')|]|]];
      cbn [fst history];
      try (exists []; rewrite ?app_nil_r; first [exact E | reflexivity]).
    exists [(q, text)]. reflexivity. }
  destruct (app_run_fst c s inp) as [E|E]; rewrite E; [exists []; rewrite app_nil_r; reflexivity|].
  rewrite script_body_fst, (keeps_image_upload inp s K).
  destruct (P2 s inp) as [p2 H2].
  destruct (P3 (fst (submit_step inp s)) inp) as [p3 H3].
  exists (p2 ++ p3). rewrite H3, H2, flat_map_app, app_assoc. reflexivity.
Qed.

Lemma history_append_only_same_image_witness :
  exists pairs,
    history (fst (app_run cfg_file_only after_analysis (ask png "Is this serious?" (Ok "No."))))
      = history after_analysis ++ flat_map pair_turns pairs.
Proof.
  apply history_append_only_same_image.
  right. exists png, png. split; [reflexivity|]. split; reflexivity.
Defined.

(** ** Follow-up questions *)

(** X7: a successful non-empty follow-up sends the replay built from the
    history before the question, then appends the question and the answer
    as one user/model pair. *)
Theorem followup_success_appends_pair
  (inp : inputs) (s : session) (q r : string) :
  history s <> [] -> in_prompt inp = Some q -> q <> "" -> in_followup_resp inp = Ok r ->
  history (fst (chat_step inp s)) =
    history s ++ [mk_turn User [PText q]; mk_turn Model [PText r]]
  /\ sess_file (fst (chat_step inp s)) = sess_file s
  /\ In (ORequest (chat_history s q)) (snd (chat_step inp s)).
Proof.
  intros Hh Hp Hq Hr. unfold chat_step.
  destruct (history s) as [|t h] eqn:E; [contradiction|].
  rewrite Hp.
  assert (T : truthy (Some q) = true).
  { simpl. destruct (String.eqb_spec q ""); [contradiction|reflexivity]. }
  rewrite T, Hr. cbn [fst snd history sess_file].
  split; [reflexivity|]. split; [reflexivity|].
  apply in_or_app; left. apply in_or_app; right. right. left. reflexivity.
Qed.

Lemma followup_success_appends_pair_witness :
  history (fst (chat_step (ask png "Is this serious?" (Ok "No.")) after_analysis)) =
    history after_analysis ++
      [mk_turn User [PText "Is this serious?"]; mk_turn Model [PText "No."]].
Proof.
  exact (proj1 (followup_success_appends_pair (ask png "Is this serious?" (Ok "No."))
                  after_analysis "Is this serious?" "No."
                  ltac:(discriminate) eq_refl ltac:(discriminate) eq_refl)).
Defined.

(** X8: an empty question (falsy for the walrus test of line 127) is
    ignored: the session is unchanged and no request is sent. *)
Theorem empty_prompt_ignored (inp : inputs) (s : session) :
  in_prompt inp = Some "" ->
  fst (chat_step inp s) = s
  /\ forall req, ~ In (ORequest req) (snd (chat_step inp s)).
Proof.
  intros Hp. unfold chat_step.
  destruct (history s) as [|t h]; [simpl; tauto|].
  rewrite Hp. cbn [fst snd truthy negb String.eqb]. split; [reflexivity|].
  intros req Hin. apply in_app_or in Hin.
  destruct Hin as [[H|[H|[]]]|Hin]; try discriminate.
  exact (render_history_no_request (t :: h) req Hin).
Qed.

Lemma empty_prompt_ignored_witness :
  fst (chat_step (ask png "" (Ok "unused")) after_analysis) = after_analysis.
Proof.
  exact (proj1 (empty_prompt_ignored (ask png "" (Ok "unused")) after_analysis eq_refl)).
Defined.

Lemma chat_step_no_prompt (inp : inputs) (s : session) :
  in_prompt inp = None -> fst (chat_step inp s) = s.
Proof.
  intros Hp. unfold chat_step. destruct (history s); [reflexivity|]. rewrite Hp. reflexivity.
Qed.

(** X9: while the history of the current image is empty, a rerun without
    the button sends no request at all: no follow-up can be asked before
    a first successful analysis. *)
Theorem no_request_before_first_analysis (inp : inputs) (s : session) :
  history (fst (upload_step (in_upload inp) s)) = [] -> in_submit inp = false ->
  fst (script_body inp s) = fst (upload_step (in_upload inp) s)
  /\ forall req, ~ In (ORequest req) (snd (script_body inp s)).
Proof.
  intros Hh Hs.
  pose proof (script_body_snd inp s) as E.
  rewrite script_body_fst.
  assert (O1 : forall req, ~ In (ORequest req) (snd (upload_step (in_upload inp) s))).
  { intros req. destruct (in_upload inp); simpl; [intros [H|[]]; discriminate|tauto]. }
  destruct (upload_step (in_upload inp) s) as [s1 o1]. cbn [fst snd] in Hh, O1 |- *.
  assert (S : submit_step inp s1 = (s1, [])) by (unfold submit_step; rewrite Hs; reflexivity).
  rewrite S in E |- *. cbn [fst snd] in E |- *.
  rewrite (chat_step_empty inp s1 Hh) in E |- *. cbn [fst snd] in E |- *.
  split; [reflexivity|].
  intros req Hin. rewrite E, !app_nil_r in Hin.
  apply in_app_or in Hin. destruct Hin as [[H|[H|[]]]|Hin]; try discriminate.
  exact (O1 req Hin).
Qed.

Lemma no_request_before_first_analysis_witness :
  fst (script_body (ask scan_b "Is this serious?" (Ok "unused")) after_analysis)
    = fst (upload_step (Some scan_b) after_analysis).
Proof.
  exact (proj1 (no_request_before_first_analysis
                  (ask scan_b "Is this serious?" (Ok "unused")) after_analysis eq_refl eq_refl)).
Defined.

(** X10: pressing the button again for the stored image does not reset
    the history: another sentinel/analysis pair is appended. *)
Theorem reanalysis_appends_to_history
  (inp : inputs) (s : session) (f g : uploaded) (a : string) :
  sess_file s = Some g -> in_upload inp = Some f -> up_name g = up_name f ->
  in_submit inp = true -> in_prompt inp = None -> in_analysis_resp inp = Ok a ->
  history (fst (script_body inp s)) =
    history s ++ [mk_turn User [PText sentinel]; mk_turn Model [PText a]].
Proof.
  intros Hg Hu Hn Hs Hp Ha.
  rewrite script_body_fst, chat_step_no_prompt by exact Hp.
  rewrite Hu, (upload_same_name f g s Hg Hn). cbn [fst].
  unfold submit_step. rewrite Hs, Hu, Hg, Ha. reflexivity.
Qed.

Lemma reanalysis_appends_to_history_witness :
  history (fst (script_body (analyze_with reupload (Ok "Second look.")) after_analysis)) =
    history after_analysis ++
      [mk_turn User [PText sentinel]; mk_turn Model [PText "Second look."]].
Proof.
  exact (reanalysis_appends_to_history (analyze_with reupload (Ok "Second look."))
           after_analysis reupload png "Second look."
           eq_refl eq_refl eq_refl eq_refl eq_refl eq_refl).
Defined.

(** X11: analysing a newly named image stores it, sends its own bytes,
    and leaves a history of exactly the new sentinel/analysis pair. *)
Theorem new_image_analysis_starts_fresh
  (inp : inputs) (s : session) (f : uploaded) (a : string) :
  (forall g, sess_file s = Some g -> up_name g <> up_name f) ->
  in_upload inp = Some f -> in_submit inp = true -> in_prompt inp = None ->
  in_analysis_resp inp = Ok a ->
  fst (script_body inp s) =
    mk_session (Some f) [mk_turn User [PText sentinel]; mk_turn Model [PText a]]
  /\ In (ORequest [mk_turn User [PImage (up_type f) (up_content f); PText analysis_instruction]])
        (snd (script_body inp s)).
Proof.
  intros Hname Hu Hs Hp Ha.
  assert (U : upload_step (Some f) s = (mk_session (Some f) [], [OShowImage f])).
  { simpl. destruct (sess_file s) as [g|] eqn:E; [|reflexivity].
    destruct (String.eqb_spec (up_name g) (up_name f)) as [Heq|_];
      [destruct (Hname g eq_refl Heq)|reflexivity]. }
  assert (S : submit_step inp (mk_session (Some f) []) =
                (mk_session (Some f) [mk_turn User [PText sentinel]; mk_turn Model [PText a]],
                 [ORequest (analysis_request f); OSubheader "Analysis Result"; OWrite a])).
  { unfold submit_step. rewrite Hs, Hu, Ha. reflexivity. }
  pose proof (script_body_snd inp s) as E.
  rewrite Hu, U, S in E.
  split.
  - rewrite script_body_fst, chat_step_no_prompt by exact Hp.
    rewrite Hu, U. cbn [fst]. rewrite S. reflexivity.
  - rewrite E. apply in_or_app; right. apply in_or_app; right.
    apply in_or_app; left. left. reflexivity.
Qed.

Lemma new_image_analysis_starts_fresh_witness :
  fst (script_body (analyze_with scan_b (Ok "MRI, knee.")) after_analysis) =
    mk_session (Some scan_b) [mk_turn User [PText sentinel]; mk_turn Model [PText "MRI, knee."]].
Proof.
  refine (proj1 (new_image_analysis_starts_fresh (analyze_with scan_b (Ok "MRI, knee."))
                   after_analysis scan_b "MRI, knee." _ eq_refl eq_refl eq_refl eq_refl)).
  intros g Hg. unfold after_analysis in Hg. vm_compute in Hg.
  injection Hg as <-. vm_compute. discriminate.
Defined.

(** X12: the reset on a new file name happens before the analysis call,
    so when that call fails the previous conversation is already gone:
    the session holds the new file and an empty history. *)
Theorem failed_new_image_analysis_drops_history
  (inp : inputs) (s : session) (f : uploaded) :
  (forall g, sess_file s = Some g -> up_name g <> up_name f) ->
  in_upload inp = Some f -> in_submit inp = true -> in_prompt inp = None ->
  is_err (in_analysis_resp inp) = true ->
  fst (script_body inp s) = mk_session (Some f) [].
Proof.
  intros Hname Hu Hs Hp He.
  assert (U : upload_step (Some f) s = (mk_session (Some f) [], [OShowImage f])).
  { simpl. destruct (sess_file s) as [g|] eqn:E; [|reflexivity].
    destruct (String.eqb_spec (up_name g) (up_name f)) as [Heq|_];
      [destruct (Hname g eq_refl Heq)|reflexivity]. }
  rewrite script_body_fst, chat_step_no_prompt by exact Hp.
  rewrite Hu, U. cbn [fst]. unfold submit_step. rewrite Hs, Hu.
  destruct (in_analysis_resp inp); [discriminate|reflexivity|reflexivity].
Qed.

Lemma failed_new_image_analysis_drops_history_witness :
  fst (script_body (analyze_with scan_b (ErrCall "429 quota")) after_analysis) =
    mk_session (Some scan_b) [].
Proof.
  refine (failed_new_image_analysis_drops_history (analyze_with scan_b (ErrCall "429 quota"))
            after_analysis scan_b _ eq_refl eq_refl eq_refl eq_refl).
  intros g Hg. unfold after_analysis in Hg. vm_compute in Hg.
  injection Hg as <-. vm_compute. discriminate.
Defined.

(** X13: a history of question/answer pairs is shown as alternating user
    and model messages, in order, when no question is the sentinel and no
    answer starts with the analysis heading. *)
Theorem paired_history_renders_in_order (pairs : list (string * string)) :
  Forall (fun qa => String.eqb (fst qa) sentinel = false
                    /\ String.prefix analysis_prefix (snd qa) = false) pairs ->
  render_history (flat_map pair_turns pairs) =
    flat_map (fun qa => [OChat "user" (fst qa); OChat "model" (snd qa)]) pairs.
Proof.
  induction 1 as [|[q a] pairs [Hq Ha] _ IH]; [reflexivity|].
  simpl in Hq, Ha |- *. rewrite <- IH.
  unfold render_turn, part0_is, part0_starts, part0_text. simpl.
  rewrite Hq, Ha. reflexivity.
Qed.

Lemma paired_history_renders_in_order_witness :
  render_history (flat_map pair_turns [("Is this serious?", "No.")]) =
    [OChat "user" "Is this serious?"; OChat "model" "No."].
Proof.
  apply paired_history_renders_in_order. repeat constructor.
Defined.
